(** * Read handlers of the crud controller: query options and dispatch

    A shallow embedding of the controller's read path
    ([GetListHandler], [GetByIDHandler], [GetFieldHandler],
    [buildQueryOptions], [getModelByID], [getCount],
    [getAssociationCount]) together with the properties of the option
    builder and of the three handlers.

    The handlers talk to three collaborators whose code lives in other
    packages: the gin request context, the [service] persistence layer
    and the response emitter.  A handler is therefore a computation over
    a [World] that records, in order, every persistence call made, every
    warning logged and every response written. *)

From Stdlib Require Import ZArith List String Bool.
From stdpp Require Import gmap strings list.
Import ListNotations.

Local Open Scope string_scope.
Local Open Scope list_scope.

(** ** Values shared by the packages *)

(** Go's [error] interface, as far as the controller uses it: a value
    with an [Error() string] method. *)
Record error : Type := errorsNew { Error : string }.

(** Values stored in a [gin.H] (a [map[string]any]) by the handlers: an
    [int64] total, or an error message. *)
Inductive anyValue : Type :=
| AnyInt64 (n : Z)
| AnyString (s : string).

(** [s != ""] *)
Definition nonEmpty (s : string) : bool := negb (String.eqb s "").

(** ** package service: query options *)

Module service.

(** [service.QueryOption] as built by this package: each constructor
    is one call of the option constructor of the same name.
    [Preload(field, options...)] keeps the options given for the
    preloaded relation. *)
#[warnings="-register-all"]
Inductive QueryOption : Type :=
| WithPage (limit offset : Z)
| OrderBy (field : string) (descending : bool)
| FilterBy (field : string) (value : string)
| Preload (field : string) (options : list QueryOption).

Definition isPage (o : QueryOption) : bool :=
  match o with WithPage _ _ => true | _ => false end.
Definition isOrderBy (o : QueryOption) : bool :=
  match o with OrderBy _ _ => true | _ => false end.
Definition isFilterBy (o : QueryOption) : bool :=
  match o with FilterBy _ _ => true | _ => false end.
Definition isPreload (o : QueryOption) : bool :=
  match o with Preload _ _ => true | _ => false end.

(** Modelled from the spec: [service.Preload] and the persistence
    layer that interprets it belong to package service, whose code is
    outside the controller.  The
    spec reads an eager-load path as "a dotted relation path" and a
    preload given under a relation as relative to that relation
    (`Product` under `Order` is `Order.Product`).  [preloadPaths]
    lists the paths one option asks for: the relation itself, then the
    paths of its nested options prefixed by it. *)
Fixpoint preloadPaths (o : QueryOption) : list string :=
  match o with
  | Preload field options =>
      field :: map (fun p => (field ++ "." ++ p)%string)
                   (flat_map preloadPaths options)
  | _ => []
  end.

Definition eagerLoadPaths (options : list QueryOption) : list string :=
  flat_map preloadPaths options.

End service.

(** ** package reflect *)

Module reflect.
(** The kinds the controller tells apart: [Invalid] (the zero Value),
    [Slice], and every other kind. *)
Inductive Kind : Type := Invalid | Slice | Other.

Definition isSlice (k : Kind) : bool :=
  match k with Slice => true | _ => false end.
End reflect.

(** ** package controller: request body and response codes *)

(** Limit and Offset are Go [int]s; the controller only compares Limit
    with zero and hands both on, so they are kept as integers. *)
Record GetRequestBody : Type := {
  Limit : Z;
  Offset : Z;
  OrderBy : string;
  Descending : bool;
  FilterBy : string;
  FilterValue : string;
  Preload : list string;
  Total : bool
}.

(** Modelled from the spec: the response codes are declared next to the
    response emitter, outside the handlers' file.  The spec names the two
    codes used by the read path, BadRequest (decode failure) and
    ProcessFailed (fetch failure), as distinct codes. *)
Inductive Code : Type := CodeBadRequest | CodeProcessFailed.

(** [buildQueryOptions]: the options start empty ([var options]) and
    grow by [append]; the [for ... range request.Preload] loop is a left
    fold over the preload fields. *)
Definition buildQueryOptions (request : GetRequestBody)
  : list service.QueryOption :=
  let options := [] in
  let options :=
    if (0 <? Limit request)%Z
    then options ++ [service.WithPage (Limit request) (Offset request)]
    else options in
  let options :=
    if nonEmpty (OrderBy request)
    then options ++ [service.OrderBy (OrderBy request) (Descending request)]
    else options in
  let options :=
    if nonEmpty (FilterBy request) && nonEmpty (FilterValue request)
    then options ++ [service.FilterBy (FilterBy request) (FilterValue request)]
    else options in
  fold_left (fun options field => options ++ [service.Preload field []])
            (Preload request) options.

(** The four blocks of the built sequence, one per [if] or loop of
    [buildQueryOptions]. *)
Definition pagePart (request : GetRequestBody) : list service.QueryOption :=
  if (0 <? Limit request)%Z
  then [service.WithPage (Limit request) (Offset request)] else [].

Definition orderPart (request : GetRequestBody) : list service.QueryOption :=
  if nonEmpty (OrderBy request)
  then [service.OrderBy (OrderBy request) (Descending request)] else [].

Definition filterPart (request : GetRequestBody) : list service.QueryOption :=
  if nonEmpty (FilterBy request) && nonEmpty (FilterValue request)
  then [service.FilterBy (FilterBy request) (FilterValue request)] else [].

Definition preloadPart (request : GetRequestBody) : list service.QueryOption :=
  map (fun field => service.Preload field []) (Preload request).

(** The option list shared by [getCount] and [getAssociationCount].
    Both take [filterValue] as [any] and compare it with the empty
    string; the handlers only ever pass the request's string. *)
Definition countOptions (filterBy filterValue : string)
  : list service.QueryOption :=
  let option := [] in
  if nonEmpty filterBy && nonEmpty filterValue
  then option ++ [service.FilterBy filterBy filterValue]
  else option.

(** The request with its pagination, ordering and filter parameters
    left out, the preload paths and the total flag kept. *)
Definition withoutListParameters (request : GetRequestBody) : GetRequestBody :=
  {| Limit := 0; Offset := 0; OrderBy := ""; Descending := false;
     FilterBy := ""; FilterValue := "";
     Preload := Preload request; Total := Total request |}.

Module gin.
(** What a handler reads from a [*gin.Context]: the outcome of
    [c.ShouldBind(&request)] and the path parameters ([c.Param] gives
    the empty string for a parameter that is absent). *)
Record Context : Type := {
  ShouldBind : GetRequestBody + error;
  Param : string -> string
}.
End gin.

Section controller.

(** The model type [T] the handlers are instantiated at, and its zero
    value ([var model T], [*new(T)]). *)
Variable T : Type.
Variable zero : T.

(** The dynamic type of exported struct fields, with its
    [reflect.Kind]; [FieldByName] is
    [reflect.ValueOf(model).Elem().FieldByName(field)], [None] being
    the zero Value returned when [T] has no such field. *)
Variable any : Type.
Variable Kind : any -> reflect.Kind.
Variable FieldByName : T -> string -> option any.

(** Declared elsewhere in package controller. *)
Variable ErrMissingID : error.
Variable NameToField : string -> T -> string.

(** *** The persistence collaborator *)

(** What the [service] functions answer.  [GetByID] is given the
    destination model and returns it filled. *)
Record Store : Type := {
  onGetMany : list service.QueryOption -> list T * option error;
  onGetByID : string -> T -> list service.QueryOption -> T * option error;
  onCount : list service.QueryOption -> Z * option error;
  onCountAssociations :
    T -> string -> list service.QueryOption -> Z * option error
}.

Variable db : Store.

Inductive Call : Type :=
| CallGetMany (options : list service.QueryOption)
| CallGetByID (id : string) (options : list service.QueryOption)
| CallCount (options : list service.QueryOption)
| CallCountAssociations (model : T) (field : string)
    (options : list service.QueryOption).

Definition isFetch (k : Call) : bool :=
  match k with
  | CallGetMany _ | CallGetByID _ _ => true
  | _ => false
  end.

Definition isCount (k : Call) : bool :=
  match k with
  | CallCount _ | CallCountAssociations _ _ _ => true
  | _ => false
  end.

(** *** Responses *)

(** The [data] argument of [ResponseSuccess]. *)
Inductive Data : Type :=
| DataList (dest : list T)
| DataModel (model : T)
| DataField (value : any).

Inductive Response : Type :=
| EmitError (code : Code) (err : error)
| EmitSuccess (data : Data) (addition : list (gmap string anyValue)).

(** *** Handler computations *)

Record World : Type := {
  calls : list Call;
  warnings : list string;
  responses : list Response;
  panicked : option string
}.

Definition start : World :=
  {| calls := []; warnings := []; responses := []; panicked := None |}.

Definition Handler (A : Type) : Type := World -> A * World.

Definition ret {A} (a : A) : Handler A := fun w => (a, w).

Definition bind {A B} (m : Handler A) (k : A -> Handler B) : Handler B :=
  fun w => let (a, w') := m w in k a w'.

Definition run (h : Handler unit) : World := snd (h start).

Definition called (k : Call) : Handler unit :=
  fun w => (tt, {| calls := calls w ++ [k]; warnings := warnings w;
                   responses := responses w; panicked := panicked w |}).

(** [logger.WithContext(c)....Warn(msg)] *)
Definition Warn (msg : string) : Handler unit :=
  fun w => (tt, {| calls := calls w; warnings := warnings w ++ [msg];
                   responses := responses w; panicked := panicked w |}).

Definition respond (r : Response) : Handler unit :=
  fun w => (tt, {| calls := calls w; warnings := warnings w;
                   responses := responses w ++ [r]; panicked := panicked w |}).

Definition panic (msg : string) : Handler unit :=
  fun w => (tt, {| calls := calls w; warnings := warnings w;
                   responses := responses w; panicked := Some msg |}).

(** [ResponseError] and [ResponseSuccess] belong to the response
    emitter; a call to either is recorded with its arguments. *)
Definition ResponseError (code : Code) (err : error) : Handler unit :=
  respond (EmitError code err).

Definition ResponseSuccess (data : Data)
    (addition : list (gmap string anyValue)) : Handler unit :=
  respond (EmitSuccess data addition).

#[local] Instance Handler_ret : MRet Handler := @ret.
#[local] Instance Handler_bind : MBind Handler :=
  fun A B k m => bind m k.

(** *** Calls into package service *)

Definition service_GetMany (options : list service.QueryOption)
  : Handler (list T * option error) :=
  called (CallGetMany options) ;; mret (onGetMany db options).

Definition service_GetByID (id : string) (dest : T)
    (options : list service.QueryOption) : Handler (T * option error) :=
  called (CallGetByID id options) ;; mret (onGetByID db id dest options).

Definition service_Count (options : list service.QueryOption)
  : Handler (Z * option error) :=
  called (CallCount options) ;; mret (onCount db options).

Definition service_CountAssociations (model : T) (field : string)
    (options : list service.QueryOption) : Handler (Z * option error) :=
  called (CallCountAssociations model field options) ;;
  mret (onCountAssociations db model field options).

(** *** Helpers of the handlers *)

(** [getModelByID] gets idParam from the url and the model from the
    database. *)
Definition getModelByID (c : gin.Context) (idParam : string)
    (options : list service.QueryOption) : Handler (T * option error) :=
  let model := zero in
  let id := gin.Param c idParam in
  if String.eqb id ""
  then Warn "getModelByID: id is empty" ;;
       mret (model, Some ErrMissingID)
  else '(model, err) ← service_GetByID id model options;
       mret (model, err).

Definition getCount (filterBy filterValue : string)
  : Handler (Z * option error) :=
  '(total, err) ← service_Count (countOptions filterBy filterValue);
  mret (total, err).

Definition getAssociationCount (model : T) (field : string)
    (filterBy filterValue : string) : Handler (Z * option error) :=
  '(count, err) ← service_CountAssociations model field
                     (countOptions filterBy filterValue);
  mret (count, err).

(** *** The handlers *)

(** GET /T?limit=10&offset=0&order_by=id&desc=true&filter_by=name&filter_value=John&total=true *)
Definition GetListHandler (c : gin.Context) : Handler unit :=
  match gin.ShouldBind c with
  | inr err =>
      Warn "GetListHandler: bind request failed" ;;
      ResponseError CodeBadRequest err
  | inl request =>
      let options := buildQueryOptions request in
      '(dest, err) ← service_GetMany options;
      match err with
      | Some err =>
          Warn "GetListHandler: GetMany failed" ;;
          ResponseError CodeProcessFailed err
      | None =>
          addition ←
            (if Total request
             then
               '(total, err) ← getCount (FilterBy request)
                                         (FilterValue request);
               match err with
               | Some err =>
                   Warn "GetListHandler: getCount failed" ;;
                   mret [ ({[ "totalError" := AnyString (Error err) ]}
                          : gmap string anyValue) ]
               | None =>
                   mret [ ({[ "total" := AnyInt64 total ]}
                          : gmap string anyValue) ]
               end
             else mret []);
          ResponseSuccess (DataList dest) addition
      end
  end.

(** GET /T/:idParam *)
Definition GetByIDHandler (idParam : string) (c : gin.Context)
  : Handler unit :=
  match gin.ShouldBind c with
  | inr err =>
      Warn "GetByIDHandler: bind request failed" ;;
      ResponseError CodeBadRequest err
  | inl request =>
      let options := buildQueryOptions request in
      '(dest, err) ← getModelByID c idParam options;
      match err with
      | Some err =>
          Warn "GetByIDHandler: getModelByID failed" ;;
          ResponseError CodeProcessFailed err
      | None => ResponseSuccess (DataModel dest) []
      end
  end.

(** GET /T/:idParam/field.  The field name is resolved once, when the
    handler is built; the whole request body then conditions the
    field: its options go inside the field's [service.Preload].
    [fieldValue.Interface()] panics on the zero Value. *)
Definition GetFieldHandler (idParam : string) (field : string)
  : gin.Context -> Handler unit :=
  let field := NameToField field zero in
  fun c =>
  match gin.ShouldBind c with
  | inr err =>
      Warn "GetFieldHandler: bind request failed" ;;
      ResponseError CodeBadRequest err
  | inl request =>
      let options := buildQueryOptions request in
      '(model, err) ← getModelByID c idParam
                         [service.Preload field options];
      match err with
      | Some err =>
          Warn "GetFieldHandler: getModelByID failed" ;;
          ResponseError CodeProcessFailed err
      | None =>
          let fieldValue := FieldByName model field in
          let kind :=
            match fieldValue with
            | Some v => Kind v
            | None => reflect.Invalid
            end in
          addition ←
            (if Total request && reflect.isSlice kind
             then
               '(total, err) ← getAssociationCount model field
                                  (FilterBy request) (FilterValue request);
               match err with
               | Some err =>
                   Warn "GetFieldHandler: getAssociationCount failed" ;;
                   mret [ ({[ "totalError" := AnyString (Error err) ]}
                          : gmap string anyValue) ]
               | None =>
                   mret [ ({[ "total" := AnyInt64 total ]}
                          : gmap string anyValue) ]
               end
             else mret []);
          match fieldValue with
          | Some v => ResponseSuccess (DataField v) addition
          | None =>
              panic "reflect: call of reflect.Value.Interface on zero Value"
          end
      end
  end.

(** The runs of the three read handlers on one request. *)
Definition readRun (idParam field : string) (c : gin.Context) (w : World)
  : Prop :=
  w = run (GetListHandler c)
  \/ w = run (GetByIDHandler idParam c)
  \/ w = run (GetFieldHandler idParam field c).

End controller.

Arguments onGetMany {T}.
Arguments onGetByID {T}.
Arguments onCount {T}.
Arguments onCountAssociations {T}.
Arguments CallGetMany {T}.
Arguments CallGetByID {T}.
Arguments CallCount {T}.
Arguments CallCountAssociations {T}.
Arguments isFetch {T}.
Arguments isCount {T}.
Arguments DataList {T any}.
Arguments DataModel {T any}.
Arguments DataField {T any}.
Arguments EmitError {T any}.
Arguments EmitSuccess {T any}.
Arguments calls {T any}.
Arguments warnings {T any}.
Arguments responses {T any}.
Arguments panicked {T any}.
Arguments run {T any}.

(** ** A concrete instance: users with orders

    One model type, its reflection table and a few stores and request
    contexts, on which the handlers can be run. *)

Module Stub.

Record User : Type := { ID : Z; Name : string; Order : list string }.

Definition zeroUser : User := {| ID := 0; Name := ""; Order := [] |}.
Definition alice : User :=
  {| ID := 7; Name := "Alice"; Order := ["book"; "pen"] |}.
Definition bob : User := {| ID := 8; Name := "Bob"; Order := [] |}.

Inductive fieldValue : Type :=
| OfInt (n : Z)
| OfString (s : string)
| OfSlice (l : list string).

Definition Kind (v : fieldValue) : reflect.Kind :=
  match v with
  | OfSlice _ => reflect.Slice
  | _ => reflect.Other
  end.

Definition FieldByName (u : User) (field : string) : option fieldValue :=
  if String.eqb field "ID" then Some (OfInt (ID u))
  else if String.eqb field "Name" then Some (OfString (Name u))
  else if String.eqb field "Order" then Some (OfSlice (Order u))
  else None.

Definition NameToField (name : string) (_ : User) : string :=
  if String.eqb name "id" then "ID"
  else if String.eqb name "name" then "Name"
  else if String.eqb name "order" then "Order"
  else name.

Definition ErrMissingID : error := errorsNew "missing id".

(** A store in which every call succeeds. *)
Definition healthy : Store User := {|
  onGetMany := fun _ => ([alice; bob], None);
  onGetByID := fun _ _ _ => (alice, None);
  onCount := fun _ => (42%Z, None);
  onCountAssociations := fun _ _ _ => (2%Z, None)
|}.

(** Fetches succeed, counts fail. *)
Definition countFails : Store User := {|
  onGetMany := fun _ => ([alice; bob], None);
  onGetByID := fun _ _ _ => (alice, None);
  onCount := fun _ => (0%Z, Some (errorsNew "count: connection lost"));
  onCountAssociations :=
    fun _ _ _ => (0%Z, Some (errorsNew "count: connection lost"))
|}.

(** Fetches fail; [count] is what the count would answer. *)
Definition fetchFails (count : Z * option error) : Store User := {|
  onGetMany := fun _ => ([], Some (errorsNew "fetch: connection lost"));
  onGetByID :=
    fun _ dest _ => (dest, Some (errorsNew "fetch: connection lost"));
  onCount := fun _ => count;
  onCountAssociations := fun _ _ _ => count
|}.

(** A store that applies the options it is given to a by-id fetch: the
    only user is Alice, so a name filter for anyone else, or a page
    starting past the first row, finds no record. *)
Definition excludesAlice (o : service.QueryOption) : bool :=
  match o with
  | service.FilterBy field value =>
      String.eqb field "name" && negb (String.eqb value "Alice")
  | service.WithPage _ offset => (0 <? offset)%Z
  | _ => false
  end.

Definition applying : Store User := {|
  onGetMany := fun options =>
    if existsb excludesAlice options then ([], None) else ([alice], None);
  onGetByID := fun _ dest options =>
    if existsb excludesAlice options
    then (dest, Some (errorsNew "record not found"))
    else (alice, None);
  onCount := fun options =>
    if existsb excludesAlice options then (0%Z, None) else (1%Z, None);
  onCountAssociations := fun _ _ _ => (2%Z, None)
|}.

(** ?limit=10&offset=0&order_by=id&desc=true&filter_by=name&filter_value=John&total=true *)
Definition johnQuery : GetRequestBody := {|
  Limit := 10; Offset := 0; OrderBy := "id"; Descending := true;
  FilterBy := "name"; FilterValue := "John"; Preload := []; Total := true
|}.

(** ?preload=Product *)
Definition preloadProduct : GetRequestBody := {|
  Limit := 0; Offset := 0; OrderBy := ""; Descending := false;
  FilterBy := ""; FilterValue := ""; Preload := ["Product"]; Total := false
|}.

(** An empty query string. *)
Definition noQuery : GetRequestBody := {|
  Limit := 0; Offset := 0; OrderBy := ""; Descending := false;
  FilterBy := ""; FilterValue := ""; Preload := []; Total := false
|}.

(** A request whose query decoded to [request] and whose route has
    the path parameter "id" set to [id]. *)
Definition context (request : GetRequestBody) (id : string)
  : gin.Context := {|
  gin.ShouldBind := inl request;
  gin.Param := fun name => if String.eqb name "id" then id else ""
|}.

(** A request whose query does not decode, on the same route. *)
Definition undecodable (id : string) : gin.Context := {|
  gin.ShouldBind := inr (errorsNew "strconv.ParseInt: invalid syntax");
  gin.Param := fun name => if String.eqb name "id" then id else ""
|}.

Definition GetList (db : Store User) : gin.Context -> World User fieldValue :=
  fun c => run (GetListHandler User fieldValue db c).

Definition GetByID (db : Store User) : gin.Context -> World User fieldValue :=
  fun c => run (GetByIDHandler User zeroUser fieldValue ErrMissingID db "id" c).

Definition GetField (db : Store User) (field : string)
  : gin.Context -> World User fieldValue :=
  fun c => run (GetFieldHandler User zeroUser fieldValue Kind FieldByName
                  ErrMissingID NameToField db "id" field c).

End Stub.

(** Unfolds a handler down to the world it leaves, keeping the option
    builders folded. *)
Ltac unfold_handler :=
  cbv [run GetListHandler GetByIDHandler GetFieldHandler
       getModelByID getCount getAssociationCount
       service_GetMany service_GetByID service_Count service_CountAssociations
       ResponseError ResponseSuccess respond called Warn panic
       mbind mret Handler_bind Handler_ret bind ret start].

Ltac empty_id H := apply String.eqb_eq in H; rewrite ?H.
Ltac given_id H := apply String.eqb_neq in H; rewrite ?H.

(** Splits a run along every branch the handler can take, innermost
    test first, and computes the world each branch leaves. *)
Ltac every_path :=
  repeat (match goal with
          | |- context [match ?x with _ => _ end] =>
              lazymatch x with
              | context [match ?y with _ => _ end] => fail
              | _ => destruct x eqn:?
              end
          end;
          cbn [snd fst calls warnings responses panicked app]).

(** Goes through the members of a list written out in a hypothesis. *)
Ltac membership_cases :=
  repeat match goal with
         | Hin : _ \/ _ |- _ => destruct Hin as [Hin | Hin]
         | Hin : False |- _ => contradiction
         end.

(** The three [if]s of [buildQueryOptions], case by case. *)
Ltac builder_cases request :=
  unfold pagePart, orderPart, filterPart;
  destruct (0 <? Limit request)%Z eqn:?, (nonEmpty (OrderBy request)) eqn:?,
    (nonEmpty (FilterBy request) && nonEmpty (FilterValue request)) eqn:?.

(** ** The option builder *)

Section builder.

Implicit Types (request : GetRequestBody) (o : service.QueryOption).

Lemma nonEmpty_true (s : string) : nonEmpty s = true <-> s <> "".
Proof.
  unfold nonEmpty. rewrite negb_true_iff. apply String.eqb_neq.
Qed.

Lemma nonEmpty_false (s : string) : nonEmpty s = false <-> s = "".
Proof.
  unfold nonEmpty. rewrite negb_false_iff. apply String.eqb_eq.
Qed.

(** A [for ... range] loop that appends one element per entry. *)
Lemma range_append {A B} (g : A -> B) (l : list A) (init : list B) :
  fold_left (fun acc x => acc ++ [g x]) l init = init ++ map g l.
Proof.
  revert init. induction l as [|x l IH]; intros init; simpl.
  - now rewrite app_nil_r.
  - rewrite IH, <- app_assoc. reflexivity.
Qed.

(** The built sequence, block by block. *)
Lemma buildQueryOptions_parts request :
  buildQueryOptions request =
  pagePart request ++ orderPart request ++ filterPart request
    ++ preloadPart request.
Proof.
  unfold buildQueryOptions, pagePart, orderPart, filterPart, preloadPart.
  rewrite range_append.
  destruct (0 <? Limit request)%Z, (nonEmpty (OrderBy request)),
    (nonEmpty (FilterBy request) && nonEmpty (FilterValue request));
    reflexivity.
Qed.

Lemma filter_preloadPart (p : service.QueryOption -> bool) request :
  (forall field, p (service.Preload field []) = false) ->
  List.filter p (preloadPart request) = [].
Proof.
  intros Hp. unfold preloadPart.
  induction (Preload request) as [|x l IH]; simpl; [reflexivity|].
  now rewrite Hp.
Qed.

Lemma filter_isPreload_preloadPart request :
  List.filter service.isPreload (preloadPart request) = preloadPart request.
Proof.
  unfold preloadPart.
  induction (Preload request) as [|x l IH]; simpl; congruence.
Qed.

Lemma countOptions_filterPart request :
  countOptions (FilterBy request) (FilterValue request) = filterPart request.
Proof. reflexivity. Qed.

End builder.

(** C7. The option builder emits a FilterBy option if and only if
    filterField and filterValue are both non-empty: the FilterBy options
    of the built sequence are exactly [FilterBy field value] in that
    case and none otherwise, so a filter with one side empty is dropped.
    The builder is a total function into option lists and has no error
    outcome. *)
Theorem buildQueryOptions_FilterBy_iff_both (request : GetRequestBody) :
  List.filter service.isFilterBy (buildQueryOptions request) =
    (if nonEmpty (FilterBy request) && nonEmpty (FilterValue request)
     then [service.FilterBy (FilterBy request) (FilterValue request)]
     else [])
  /\ ((exists o, In o (buildQueryOptions request)
                 /\ service.isFilterBy o = true)
      <-> FilterBy request <> "" /\ FilterValue request <> "").
Proof.
  assert (E : List.filter service.isFilterBy (buildQueryOptions request) =
              filterPart request).
  { rewrite buildQueryOptions_parts, !List.filter_app.
    rewrite filter_preloadPart by reflexivity.
    unfold pagePart, orderPart, filterPart.
    destruct (0 <? Limit request)%Z, (nonEmpty (OrderBy request)),
      (nonEmpty (FilterBy request) && nonEmpty (FilterValue request));
      reflexivity. }
  split; [exact E|].
  rewrite <- !nonEmpty_true, <- andb_true_iff.
  split.
  - intros (o & Hin & Ho).
    assert (Hf : In o (List.filter service.isFilterBy (buildQueryOptions request)))
      by (apply List.filter_In; auto).
    rewrite E in Hf. unfold filterPart in Hf.
    destruct (nonEmpty (FilterBy request) && nonEmpty (FilterValue request));
      [reflexivity | destruct Hf].
  - intros Hb.
    exists (service.FilterBy (FilterBy request) (FilterValue request)).
    split; [|reflexivity].
    apply (proj1 (List.filter_In service.isFilterBy _ (buildQueryOptions request))).
    rewrite E. unfold filterPart. rewrite Hb. now left.
Qed.

(** C8. The option builder emits [Page{limit, offset}] if and only if
    [limit > 0]: the Page options of the built sequence are exactly
    [WithPage limit offset] when the limit is positive and none
    otherwise; with [limit <= 0] no option of the sequence is a Page. *)
Theorem buildQueryOptions_Page_iff_positive_limit (request : GetRequestBody) :
  List.filter service.isPage (buildQueryOptions request) =
    (if (0 <? Limit request)%Z
     then [service.WithPage (Limit request) (Offset request)]
     else [])
  /\ ((exists o, In o (buildQueryOptions request) /\ service.isPage o = true)
      <-> (Limit request > 0)%Z)
  /\ ((Limit request <= 0)%Z ->
      forall o, In o (buildQueryOptions request) -> service.isPage o = false).
Proof.
  assert (E : List.filter service.isPage (buildQueryOptions request) =
              pagePart request).
  { rewrite buildQueryOptions_parts, !List.filter_app.
    rewrite filter_preloadPart by reflexivity.
    unfold pagePart, orderPart, filterPart.
    destruct (0 <? Limit request)%Z, (nonEmpty (OrderBy request)),
      (nonEmpty (FilterBy request) && nonEmpty (FilterValue request));
      reflexivity. }
  split; [exact E|]. unfold pagePart in E.
  split; [split|].
  - intros (o & Hin & Ho).
    assert (Hf : In o (List.filter service.isPage (buildQueryOptions request)))
      by (apply List.filter_In; auto).
    rewrite E in Hf.
    destruct (Z.ltb_spec 0 (Limit request)); [lia | destruct Hf].
  - intros Hpos.
    exists (service.WithPage (Limit request) (Offset request)).
    split; [|reflexivity].
    apply (proj1 (List.filter_In service.isPage _ (buildQueryOptions request))).
    rewrite E.
    destruct (Z.ltb_spec 0 (Limit request)); [now left | lia].
  - intros Hle o Hin.
    destruct (service.isPage o) eqn:Ho; [|reflexivity].
    assert (Hf : In o (List.filter service.isPage (buildQueryOptions request)))
      by (apply List.filter_In; auto).
    rewrite E in Hf.
    destruct (Z.ltb_spec 0 (Limit request)); [lia | destruct Hf].
Qed.

(** C9. The option builder emits exactly one Preload option per entry
    of preloadPaths, in the input order, for any number of paths: the
    Preload options of the built sequence are the preload paths mapped
    one by one, there are as many of them as paths, and the i-th one
    preloads the i-th path. *)
Theorem buildQueryOptions_Preload_in_order (request : GetRequestBody) :
  List.filter service.isPreload (buildQueryOptions request) =
    map (fun path => service.Preload path []) (Preload request)
  /\ length (List.filter service.isPreload (buildQueryOptions request)) =
     length (Preload request)
  /\ (forall i : nat,
        List.filter service.isPreload (buildQueryOptions request) !! i =
        (fun path => service.Preload path []) <$> (Preload request !! i)).
Proof.
  assert (E : List.filter service.isPreload (buildQueryOptions request) =
              preloadPart request).
  { rewrite buildQueryOptions_parts, !List.filter_app.
    rewrite filter_isPreload_preloadPart.
    unfold pagePart, orderPart, filterPart.
    destruct (0 <? Limit request)%Z, (nonEmpty (OrderBy request)),
      (nonEmpty (FilterBy request) && nonEmpty (FilterValue request));
      reflexivity. }
  rewrite E. unfold preloadPart.
  split; [reflexivity|]. split.
  - apply List.length_map.
  - intros i. apply list_lookup_fmap.
Qed.

(** ** The handlers *)

Section handlers.

Context {T any : Type}.
Variable zero : T.
Variable Kind : any -> reflect.Kind.
Variable FieldByName : T -> string -> option any.
Variable ErrMissingID : error.
Variable NameToField : string -> T -> string.

Local Abbreviation GetList db c :=
  (run (GetListHandler T any db c)).
Local Abbreviation GetByID db idParam c :=
  (run (GetByIDHandler T zero any ErrMissingID db idParam c)).
Local Abbreviation GetField db idParam field c :=
  (run (GetFieldHandler T zero any Kind FieldByName ErrMissingID
          NameToField db idParam field c)).

(** C1, as the code has it. For every GetByID request that decodes
    and whose path identifier is empty, the handler makes no
    persistence call at all and answers with the MissingID error; the
    response code it reports the error with is ProcessFailed. *)
Theorem GetByID_empty_id_MissingID_ProcessFailed
    (db : Store T) (idParam : string) (c : gin.Context)
    (request : GetRequestBody) :
  gin.ShouldBind c = inl request ->
  gin.Param c idParam = "" ->
  calls (GetByID db idParam c) = []
  /\ responses (GetByID db idParam c) =
     [EmitError CodeProcessFailed ErrMissingID].
Proof.
  intros Hbind Hid. unfold_handler.
  rewrite Hbind. empty_id Hid. split; reflexivity.
Qed.

(** C2. For every List request with wantTotal set, when the fetch
    succeeds and the count fails, the one response written is a
    success envelope carrying the fetched data and a single addendum
    whose [totalError] entry is the count error's message. *)
Theorem GetList_count_failure_becomes_totalError
    (db : Store T) (c : gin.Context) (request : GetRequestBody)
    (dest : list T) (total : Z) (countErr : error) :
  gin.ShouldBind c = inl request ->
  Total request = true ->
  onGetMany db (buildQueryOptions request) = (dest, None) ->
  onCount db (countOptions (FilterBy request) (FilterValue request)) =
    (total, Some countErr) ->
  responses (GetList db c) =
    [EmitSuccess (DataList dest)
       [ {[ "totalError" := AnyString (Error countErr) ]} ]]
  /\ panicked (GetList db c) = None.
Proof.
  intros Hbind Htotal Hfetch Hcount. unfold_handler.
  rewrite Hbind, Hfetch, Htotal, Hcount. split; reflexivity.
Qed.

(** C3. For every List request, when the fetch fails the one response
    written is the error envelope with code ProcessFailed and the
    fetch's error; the fetch is the only persistence call made, so no
    count is attempted, and a store that differs only in what its
    count would answer leads to the same world. *)
Theorem GetList_fetch_failure_ProcessFailed
    (db : Store T) (c : gin.Context) (request : GetRequestBody)
    (dest : list T) (fetchErr : error) :
  gin.ShouldBind c = inl request ->
  onGetMany db (buildQueryOptions request) = (dest, Some fetchErr) ->
  responses (GetList db c) = [EmitError CodeProcessFailed fetchErr]
  /\ calls (GetList db c) = [CallGetMany (buildQueryOptions request)]
  /\ (forall count' countAssociations',
        GetList {| onGetMany := onGetMany db;
                   onGetByID := onGetByID db;
                   onCount := count';
                   onCountAssociations := countAssociations' |} c
        = GetList db c).
Proof.
  intros Hbind Hfetch. unfold_handler.
  rewrite Hbind. cbn [onGetMany]. rewrite Hfetch.
  repeat split; reflexivity.
Qed.

(** C4. For every List request with wantTotal set, any count made on
    the persistence collaborator receives exactly the filter block:
    the FilterBy option when filterField and filterValue are both
    non-empty, and nothing otherwise.  No option passed to the count
    is a Page, an OrderBy or a Preload.  When the fetch succeeds the
    count is indeed made, right after the fetch. *)
Theorem GetList_count_sees_only_the_filter
    (db : Store T) (c : gin.Context) (request : GetRequestBody) :
  gin.ShouldBind c = inl request ->
  Total request = true ->
  (forall options, In (CallCount options) (calls (GetList db c)) ->
     options =
       (if nonEmpty (FilterBy request) && nonEmpty (FilterValue request)
        then [service.FilterBy (FilterBy request) (FilterValue request)]
        else [])
     /\ forall o, In o options ->
          service.isPage o = false /\ service.isOrderBy o = false
          /\ service.isPreload o = false)
  /\ (snd (onGetMany db (buildQueryOptions request)) = None ->
      calls (GetList db c) =
        [CallGetMany (buildQueryOptions request);
         CallCount (countOptions (FilterBy request) (FilterValue request))]).
Proof.
  intros Hbind Htotal. unfold_handler. rewrite Hbind.
  destruct (onGetMany db (buildQueryOptions request)) as [dest [e|]].
  - cbn [snd calls app In]. split; [|discriminate].
    intros options [H|[]]. discriminate H.
  - rewrite Htotal.
    destruct (onCount db _) as [total [e|]]; cbn [snd calls app In].
    all: split; [|reflexivity].
    all: intros options [H|[H|[]]]; [discriminate H|].
    all: injection H as <-; unfold countOptions.
    all: split; [reflexivity|].
    all: destruct (nonEmpty (FilterBy request) && nonEmpty (FilterValue request)).
    all: intros o Hin; cbn [In] in Hin.
    all: first [contradiction | destruct Hin as [<-|[]]].
    all: repeat split; reflexivity.
Qed.

(** The eager-load paths asked for by a built sequence are the
    request's preload paths. *)
Lemma eagerLoadPaths_buildQueryOptions (request : GetRequestBody) :
  service.eagerLoadPaths (buildQueryOptions request) = Preload request.
Proof.
  unfold service.eagerLoadPaths.
  rewrite buildQueryOptions_parts, !flat_map_app.
  assert (Hpre : flat_map service.preloadPaths (preloadPart request) =
                 Preload request).
  { unfold preloadPart.
    induction (Preload request) as [|x l IH]; simpl; congruence. }
  rewrite Hpre. unfold pagePart, orderPart, filterPart.
  destruct (0 <? Limit request)%Z, (nonEmpty (OrderBy request)),
    (nonEmpty (FilterBy request) && nonEmpty (FilterValue request));
    reflexivity.
Qed.

(** C5. For every GetNestedField request with an identifier, the one
    fetch made receives a single option: the forced Preload of the
    resolved field, holding every option built from the request.  Read
    as eager-load paths, that is the field itself followed by each
    user preload path prefixed with the field. *)
Theorem GetField_user_options_inside_forced_Preload
    (db : Store T) (idParam field : string) (c : gin.Context)
    (request : GetRequestBody) :
  gin.ShouldBind c = inl request ->
  gin.Param c idParam <> "" ->
  List.filter isFetch (calls (GetField db idParam field c)) =
    [CallGetByID (gin.Param c idParam)
       [service.Preload (NameToField field zero)
          (buildQueryOptions request)]]
  /\ service.eagerLoadPaths
       [service.Preload (NameToField field zero)
          (buildQueryOptions request)] =
     NameToField field zero ::
       map (fun path => (NameToField field zero ++ "." ++ path)%string)
           (Preload request).
Proof.
  intros Hbind Hid. split.
  - unfold_handler. rewrite Hbind. given_id Hid.
    destruct (onGetByID db _ _ _) as [model [e|]]; [reflexivity|].
    destruct (Total request); cbn [andb]; [|now destruct (FieldByName _ _)].
    destruct (FieldByName model _) as [v|]; cbn [reflect.isSlice];
      [|reflexivity].
    destruct (Kind v); cbn [reflect.isSlice]; try reflexivity.
    now destruct (onCountAssociations db _ _ _) as [total [e|]].
  - unfold service.eagerLoadPaths at 1. cbn [flat_map service.preloadPaths].
    fold (service.eagerLoadPaths (buildQueryOptions request)).
    rewrite eagerLoadPaths_buildQueryOptions. apply app_nil_r.
Qed.

(** C6, as the code has it. For every GetByID request with an
    identifier, the handler neither rejects nor drops pagination,
    ordering or filter parameters: the single-record fetch receives
    the whole built sequence (page, order and filter blocks, then the
    preloads), and the response is the fetched record when that fetch
    succeeds and ProcessFailed with the fetch's error when it fails. *)
Theorem GetByID_forwards_every_built_option
    (db : Store T) (idParam : string) (c : gin.Context)
    (request : GetRequestBody) :
  gin.ShouldBind c = inl request ->
  gin.Param c idParam <> "" ->
  calls (GetByID db idParam c) =
    [CallGetByID (gin.Param c idParam)
       (pagePart request ++ orderPart request ++ filterPart request
          ++ preloadPart request)]
  /\ responses (GetByID db idParam c) =
     [match onGetByID db (gin.Param c idParam) zero
              (buildQueryOptions request) with
      | (model, None) => EmitSuccess (DataModel model) []
      | (_, Some err) => EmitError CodeProcessFailed err
      end].
Proof.
  intros Hbind Hid. rewrite <- buildQueryOptions_parts.
  unfold_handler. rewrite Hbind. given_id Hid.
  destruct (onGetByID db _ _ _) as [model [e|]]; split; reflexivity.
Qed.

(** C10. For every GetByID request that succeeds, whatever its total
    flag, the one response written is the success envelope with the
    fetched record and an empty list of addenda; the by-id fetch is
    the only persistence call, so no count is made. *)
Theorem GetByID_success_has_no_addenda
    (db : Store T) (idParam : string) (c : gin.Context)
    (request : GetRequestBody) (model : T) :
  gin.ShouldBind c = inl request ->
  gin.Param c idParam <> "" ->
  onGetByID db (gin.Param c idParam) zero (buildQueryOptions request) =
    (model, None) ->
  responses (GetByID db idParam c) = [EmitSuccess (DataModel model) []]
  /\ calls (GetByID db idParam c) =
     [CallGetByID (gin.Param c idParam) (buildQueryOptions request)]
  /\ List.filter isCount (calls (GetByID db idParam c)) = [].
Proof.
  intros Hbind Hid Hfetch.
  unfold_handler. rewrite Hbind. given_id Hid. rewrite Hfetch.
  repeat split; reflexivity.
Qed.

End handlers.

(** ** The handlers on the concrete instance *)

Example buildQueryOptions_johnQuery :
  buildQueryOptions Stub.johnQuery =
    [service.WithPage 10 0; service.OrderBy "id" true;
     service.FilterBy "name" "John"].
Proof. reflexivity. Qed.

Example GetList_johnQuery_total :
  responses (Stub.GetList Stub.healthy (Stub.context Stub.johnQuery "")) =
    [EmitSuccess (DataList [Stub.alice; Stub.bob])
       [ {[ "total" := AnyInt64 42 ]} ]].
Proof. reflexivity. Qed.

(** C1, as stated, fails: a request that decodes and has no path
    identifier is answered with MissingID under the code ProcessFailed,
    and no response with the code BadRequest is written. *)
Lemma GetByID_empty_id_not_BadRequest :
  gin.Param (Stub.context Stub.noQuery "") "id" = ""
  /\ responses (Stub.GetByID Stub.healthy (Stub.context Stub.noQuery "")) =
     [EmitError CodeProcessFailed Stub.ErrMissingID]
  /\ ~ (exists err,
          In (EmitError CodeBadRequest err)
             (responses
                (Stub.GetByID Stub.healthy (Stub.context Stub.noQuery "")))).
Proof.
  split; [reflexivity|]. split; [reflexivity|].
  intros [err [H|[]]]. discriminate H.
Qed.

Lemma GetByID_empty_id_MissingID_ProcessFailed_witness :
  calls (Stub.GetByID Stub.healthy (Stub.context Stub.johnQuery "")) = []
  /\ responses (Stub.GetByID Stub.healthy (Stub.context Stub.johnQuery "")) =
     [EmitError CodeProcessFailed Stub.ErrMissingID].
Proof.
  apply (GetByID_empty_id_MissingID_ProcessFailed
           Stub.zeroUser Stub.ErrMissingID Stub.healthy "id"
           (Stub.context Stub.johnQuery "") Stub.johnQuery);
    reflexivity.
Defined.

Lemma GetList_count_failure_becomes_totalError_witness :
  responses (Stub.GetList Stub.countFails (Stub.context Stub.johnQuery "")) =
    [EmitSuccess (DataList [Stub.alice; Stub.bob])
       [ {[ "totalError" := AnyString "count: connection lost" ]} ]]
  /\ panicked (Stub.GetList Stub.countFails (Stub.context Stub.johnQuery ""))
     = None.
Proof.
  apply (GetList_count_failure_becomes_totalError
           Stub.countFails (Stub.context Stub.johnQuery "") Stub.johnQuery
           [Stub.alice; Stub.bob] 0%Z (errorsNew "count: connection lost"));
    reflexivity.
Defined.

Lemma GetList_fetch_failure_ProcessFailed_witness :
  responses
    (Stub.GetList (Stub.fetchFails (42%Z, None))
       (Stub.context Stub.johnQuery "")) =
    [EmitError CodeProcessFailed (errorsNew "fetch: connection lost")]
  /\ calls
       (Stub.GetList (Stub.fetchFails (42%Z, None))
          (Stub.context Stub.johnQuery "")) =
     [CallGetMany (buildQueryOptions Stub.johnQuery)]
  /\ (forall count' countAssociations',
        run (GetListHandler Stub.User Stub.fieldValue
               {| onGetMany := onGetMany (Stub.fetchFails (42%Z, None));
                  onGetByID := onGetByID (Stub.fetchFails (42%Z, None));
                  onCount := count';
                  onCountAssociations := countAssociations' |}
               (Stub.context Stub.johnQuery ""))
        = run (GetListHandler Stub.User Stub.fieldValue
                 (Stub.fetchFails (42%Z, None))
                 (Stub.context Stub.johnQuery ""))).
Proof.
  apply (GetList_fetch_failure_ProcessFailed
           (Stub.fetchFails (42%Z, None)) (Stub.context Stub.johnQuery "")
           Stub.johnQuery [] (errorsNew "fetch: connection lost"));
    reflexivity.
Defined.

Lemma GetList_count_sees_only_the_filter_witness :
  calls (Stub.GetList Stub.healthy (Stub.context Stub.johnQuery "")) =
    [CallGetMany [service.WithPage 10 0; service.OrderBy "id" true;
                  service.FilterBy "name" "John"];
     CallCount [service.FilterBy "name" "John"]].
Proof.
  apply (GetList_count_sees_only_the_filter
           (any := Stub.fieldValue)
           Stub.healthy (Stub.context Stub.johnQuery "") Stub.johnQuery);
    reflexivity.
Defined.

Lemma GetField_user_options_inside_forced_Preload_witness :
  List.filter isFetch
    (calls (Stub.GetField Stub.healthy "order"
              (Stub.context Stub.preloadProduct "7"))) =
    [CallGetByID "7"
       [service.Preload "Order" [service.Preload "Product" []]]]
  /\ service.eagerLoadPaths
       [service.Preload "Order" [service.Preload "Product" []]] =
     ["Order"; "Order.Product"].
Proof.
  apply (GetField_user_options_inside_forced_Preload
           Stub.zeroUser Stub.Kind Stub.FieldByName Stub.ErrMissingID
           Stub.NameToField Stub.healthy "id" "order"
           (Stub.context Stub.preloadProduct "7") Stub.preloadProduct);
    [reflexivity | discriminate].
Defined.

(** C6, as stated, fails: the page, order and filter options of the
    request reach the by-id fetch, where the same request without them
    sends none; on a store that applies the options it receives, the
    filter turns a request that would succeed into a ProcessFailed
    response. *)
Lemma GetByID_list_options_not_ignored :
  calls (Stub.GetByID Stub.applying (Stub.context Stub.johnQuery "7")) =
    [CallGetByID "7"
       [service.WithPage 10 0; service.OrderBy "id" true;
        service.FilterBy "name" "John"]]
  /\ calls (Stub.GetByID Stub.applying
              (Stub.context (withoutListParameters Stub.johnQuery) "7")) =
     [CallGetByID "7" []]
  /\ responses (Stub.GetByID Stub.applying (Stub.context Stub.johnQuery "7")) =
     [EmitError CodeProcessFailed (errorsNew "record not found")]
  /\ responses (Stub.GetByID Stub.applying
                  (Stub.context (withoutListParameters Stub.johnQuery) "7")) =
     [EmitSuccess (DataModel Stub.alice) []]
  /\ Stub.GetByID Stub.applying (Stub.context Stub.johnQuery "7") <>
     Stub.GetByID Stub.applying
       (Stub.context (withoutListParameters Stub.johnQuery) "7").
Proof.
  repeat split; try reflexivity.
  intros H. apply (f_equal calls) in H. discriminate H.
Qed.

Lemma GetByID_forwards_every_built_option_witness :
  calls (Stub.GetByID Stub.healthy (Stub.context Stub.johnQuery "7")) =
    [CallGetByID "7"
       [service.WithPage 10 0; service.OrderBy "id" true;
        service.FilterBy "name" "John"]]
  /\ responses (Stub.GetByID Stub.healthy (Stub.context Stub.johnQuery "7")) =
     [EmitSuccess (DataModel Stub.alice) []].
Proof.
  apply (GetByID_forwards_every_built_option
           Stub.zeroUser Stub.ErrMissingID Stub.healthy "id"
           (Stub.context Stub.johnQuery "7") Stub.johnQuery);
    [reflexivity | discriminate].
Defined.

Lemma GetByID_success_has_no_addenda_witness :
  Total Stub.johnQuery = true
  /\ responses (Stub.GetByID Stub.healthy (Stub.context Stub.johnQuery "7")) =
     [EmitSuccess (DataModel Stub.alice) []]
  /\ calls (Stub.GetByID Stub.healthy (Stub.context Stub.johnQuery "7")) =
     [CallGetByID "7" (buildQueryOptions Stub.johnQuery)]
  /\ List.filter isCount
       (calls (Stub.GetByID Stub.healthy (Stub.context Stub.johnQuery "7")))
     = [].
Proof.
  split; [reflexivity|].
  apply (GetByID_success_has_no_addenda
           Stub.zeroUser Stub.ErrMissingID Stub.healthy "id"
           (Stub.context Stub.johnQuery "7") Stub.johnQuery Stub.alice);
    [reflexivity | discriminate | reflexivity].
Defined.


(** ** Further properties of the option builder *)

Lemma filter_isOrderBy_parts (request : GetRequestBody) :
  List.filter service.isOrderBy (buildQueryOptions request) =
  orderPart request.
Proof.
  rewrite buildQueryOptions_parts, !List.filter_app.
  rewrite filter_preloadPart by reflexivity.
  builder_cases request; reflexivity.
Qed.

Lemma filter_isPage_parts (request : GetRequestBody) :
  List.filter service.isPage (buildQueryOptions request) = pagePart request.
Proof.
  rewrite buildQueryOptions_parts, !List.filter_app.
  rewrite filter_preloadPart by reflexivity.
  builder_cases request; reflexivity.
Qed.

Lemma filter_isFilterBy_parts (request : GetRequestBody) :
  List.filter service.isFilterBy (buildQueryOptions request) =
  filterPart request.
Proof.
  rewrite buildQueryOptions_parts, !List.filter_app.
  rewrite filter_preloadPart by reflexivity.
  builder_cases request; reflexivity.
Qed.

Lemma filter_isPreload_parts (request : GetRequestBody) :
  List.filter service.isPreload (buildQueryOptions request) =
  preloadPart request.
Proof.
  rewrite buildQueryOptions_parts, !List.filter_app.
  rewrite filter_isPreload_preloadPart.
  builder_cases request; reflexivity.
Qed.

(** X1. The option builder emits [OrderBy{orderBy, descending}] if and
    only if orderBy is non-empty: the OrderBy options of the built
    sequence are exactly that one option in this case and none when
    orderBy is empty, whatever the desc flag says. *)
Theorem buildQueryOptions_OrderBy_iff_nonempty (request : GetRequestBody) :
  List.filter service.isOrderBy (buildQueryOptions request) =
    (if nonEmpty (OrderBy request)
     then [service.OrderBy (OrderBy request) (Descending request)]
     else [])
  /\ ((exists o, In o (buildQueryOptions request)
                 /\ service.isOrderBy o = true)
      <-> OrderBy request <> "").
Proof.
  split; [apply filter_isOrderBy_parts|].
  rewrite <- nonEmpty_true. split.
  - intros (o & Hin & Ho).
    assert (Hf : In o (List.filter service.isOrderBy
                         (buildQueryOptions request)))
      by (apply List.filter_In; auto).
    rewrite filter_isOrderBy_parts in Hf. unfold orderPart in Hf.
    destruct (nonEmpty (OrderBy request)); [reflexivity | destruct Hf].
  - intros Hb.
    exists (service.OrderBy (OrderBy request) (Descending request)).
    split; [|reflexivity].
    apply (proj1 (List.filter_In service.isOrderBy _
                    (buildQueryOptions request))).
    rewrite filter_isOrderBy_parts. unfold orderPart. rewrite Hb. now left.
Qed.

(** X2. The built sequence has a fixed layout: its Page options, then
    its OrderBy options, then its FilterBy options, then its Preloads,
    and nothing else; Page, OrderBy and FilterBy each occur at most
    once, so only Preloads can repeat. *)
Theorem buildQueryOptions_layout (request : GetRequestBody) :
  buildQueryOptions request =
    List.filter service.isPage (buildQueryOptions request)
    ++ List.filter service.isOrderBy (buildQueryOptions request)
    ++ List.filter service.isFilterBy (buildQueryOptions request)
    ++ List.filter service.isPreload (buildQueryOptions request)
  /\ length (List.filter service.isPage (buildQueryOptions request)) <= 1
  /\ length (List.filter service.isOrderBy (buildQueryOptions request)) <= 1
  /\ length (List.filter service.isFilterBy (buildQueryOptions request)) <= 1
  /\ length (buildQueryOptions request) <= 3 + length (Preload request).
Proof.
  rewrite filter_isPage_parts, filter_isOrderBy_parts,
    filter_isFilterBy_parts, filter_isPreload_parts.
  split; [apply buildQueryOptions_parts|].
  rewrite buildQueryOptions_parts, !length_app.
  unfold preloadPart. rewrite List.length_map.
  builder_cases request; cbn [length]; lia.
Qed.

(** X3. Parameters that qualify another one are dropped with it: two
    requests that differ only in their offset build the same options
    when the limit is zero or negative, and two requests without
    order_by that differ only in desc build the same options. *)
Theorem buildQueryOptions_offset_and_desc_alone_are_dropped
    (limit offset offset' : Z) (orderBy : string) (desc desc' : bool)
    (filterBy filterValue : string) (preload : list string) (total : bool) :
  ((limit <= 0)%Z ->
   buildQueryOptions
     {| Limit := limit; Offset := offset; OrderBy := orderBy;
        Descending := desc; FilterBy := filterBy; FilterValue := filterValue;
        Preload := preload; Total := total |} =
   buildQueryOptions
     {| Limit := limit; Offset := offset'; OrderBy := orderBy;
        Descending := desc; FilterBy := filterBy; FilterValue := filterValue;
        Preload := preload; Total := total |})
  /\ buildQueryOptions
       {| Limit := limit; Offset := offset; OrderBy := "";
          Descending := desc; FilterBy := filterBy;
          FilterValue := filterValue; Preload := preload; Total := total |} =
     buildQueryOptions
       {| Limit := limit; Offset := offset; OrderBy := "";
          Descending := desc'; FilterBy := filterBy;
          FilterValue := filterValue; Preload := preload; Total := total |}.
Proof.
  split; [|reflexivity].
  intros Hlimit. unfold buildQueryOptions. cbn [Limit Offset].
  destruct (Z.ltb_spec 0 limit); [lia | reflexivity].
Qed.

(** X4. The built sequence is empty exactly for a request that asks for
    nothing: no positive limit, no order_by, a filter with at least one
    side empty, and no preload path. *)
Theorem buildQueryOptions_empty_iff (request : GetRequestBody) :
  buildQueryOptions request = [] <->
  (Limit request <= 0)%Z /\ OrderBy request = ""
  /\ (FilterBy request = "" \/ FilterValue request = "")
  /\ Preload request = [].
Proof.
  rewrite buildQueryOptions_parts.
  rewrite <- !nonEmpty_false, <- andb_false_iff.
  unfold pagePart, orderPart, filterPart, preloadPart.
  destruct (Z.ltb_spec 0 (Limit request)),
    (nonEmpty (OrderBy request)),
    (nonEmpty (FilterBy request) && nonEmpty (FilterValue request)),
    (Preload request) as [|path paths]; cbn [app map].
  all: split; [try discriminate | intros (? & ? & ? & ?)];
    try discriminate; try lia.
  - intros _. repeat split; lia.
  - reflexivity.
Qed.

(** X5. The count and the fetch agree on the filter: the options that
    [getCount] and [getAssociationCount] build from the request's
    filter_by and filter_value are exactly the FilterBy options that
    [buildQueryOptions] puts in the fetch's sequence. *)
Theorem countOptions_are_the_fetch_filter (request : GetRequestBody) :
  countOptions (FilterBy request) (FilterValue request) =
  List.filter service.isFilterBy (buildQueryOptions request).
Proof.
  rewrite filter_isFilterBy_parts. reflexivity.
Qed.

(** ** Further properties of the handlers *)

Section handlers_every_path.

Context {T any : Type}.
Variable zero : T.
Variable Kind : any -> reflect.Kind.
Variable FieldByName : T -> string -> option any.
Variable ErrMissingID : error.
Variable NameToField : string -> T -> string.

Local Abbreviation GetList db c :=
  (run (GetListHandler T any db c)).
Local Abbreviation GetByID db idParam c :=
  (run (GetByIDHandler T zero any ErrMissingID db idParam c)).
Local Abbreviation GetField db idParam field c :=
  (run (GetFieldHandler T zero any Kind FieldByName ErrMissingID
          NameToField db idParam field c)).
Local Abbreviation anyRun db idParam field c w :=
  (readRun T zero any Kind FieldByName ErrMissingID NameToField db
     idParam field c w).

(** X6. In all three handlers a request that does not decode is
    answered at once with the decode error under the code BadRequest:
    no persistence call is made, whatever the path identifier is. *)
Theorem bind_failure_is_BadRequest_without_calls
    (db : Store T) (idParam field : string) (c : gin.Context)
    (bindErr : error) (w : World T any) :
  anyRun db idParam field c w ->
  gin.ShouldBind c = inr bindErr ->
  responses w = [EmitError CodeBadRequest bindErr]
  /\ calls w = []
  /\ panicked w = None.
Proof.
  intros [-> | [-> | ->]] Hbind; unfold_handler; rewrite Hbind;
    repeat split; reflexivity.
Qed.

(** X7. A List request without the total flag makes the fetch and
    nothing else: the response is the success envelope with the fetched
    data and no addenda, no count is made and nothing is logged. *)
Theorem GetList_without_total_skips_count
    (db : Store T) (c : gin.Context) (request : GetRequestBody)
    (dest : list T) :
  gin.ShouldBind c = inl request ->
  Total request = false ->
  onGetMany db (buildQueryOptions request) = (dest, None) ->
  responses (GetList db c) = [EmitSuccess (DataList dest) []]
  /\ calls (GetList db c) = [CallGetMany (buildQueryOptions request)]
  /\ warnings (GetList db c) = [].
Proof.
  intros Hbind Htotal Hfetch. unfold_handler.
  rewrite Hbind, Hfetch, Htotal. repeat split; reflexivity.
Qed.

(** X8. A List request with the total flag whose fetch and count both
    succeed is answered with the fetched data and one addendum whose
    [total] entry is the count; the fetch is made with the whole built
    sequence, then the count. *)
Theorem GetList_with_total_attaches_count
    (db : Store T) (c : gin.Context) (request : GetRequestBody)
    (dest : list T) (total : Z) :
  gin.ShouldBind c = inl request ->
  Total request = true ->
  onGetMany db (buildQueryOptions request) = (dest, None) ->
  onCount db (countOptions (FilterBy request) (FilterValue request)) =
    (total, None) ->
  responses (GetList db c) =
    [EmitSuccess (DataList dest) [ {[ "total" := AnyInt64 total ]} ]]
  /\ calls (GetList db c) =
     [CallGetMany (buildQueryOptions request);
      CallCount (countOptions (FilterBy request) (FilterValue request))]
  /\ warnings (GetList db c) = [].
Proof.
  intros Hbind Htotal Hfetch Hcount. unfold_handler.
  rewrite Hbind, Hfetch, Htotal, Hcount. repeat split; reflexivity.
Qed.

(** X9. Every run of a read handler writes exactly one response,
    unless it panics; a run that panics has written no response, and
    only the nested-field handler can panic. *)
Theorem one_response_per_request
    (db : Store T) (idParam field : string) (c : gin.Context)
    (w : World T any) :
  anyRun db idParam field c w ->
  match panicked w with
  | None => length (responses w) = 1
  | Some _ => responses w = [] /\ w = GetField db idParam field c
  end.
Proof.
  intros [-> | [-> | ->]]; unfold_handler; every_path;
    cbn [panicked responses snd length app]; try reflexivity.
  all: split; [reflexivity|].
  all: unfold_handler.
  all: repeat match goal with H : _ = _ |- _ => rewrite H end.
  all: cbn [andb reflect.isSlice]; rewrite ?andb_false_r; reflexivity.
Qed.

(** X10. No read handler retries or reorders its persistence calls: a
    run makes at most one fetch, at most one count, the fetch first,
    and never a count without a fetch. *)
Theorem at_most_one_fetch_then_one_count
    (db : Store T) (idParam field : string) (c : gin.Context)
    (w : World T any) :
  anyRun db idParam field c w ->
  calls w = List.filter isFetch (calls w) ++ List.filter isCount (calls w)
  /\ length (List.filter isFetch (calls w)) <= 1
  /\ length (List.filter isCount (calls w))
     <= length (List.filter isFetch (calls w)).
Proof.
  intros [-> | [-> | ->]]; unfold_handler; every_path;
    cbn; repeat split; lia.
Qed.

(** X11. The code BadRequest is kept for decode failures: if a run of
    any read handler writes an error under BadRequest, the request did
    not decode and the error is the decode error. *)
Theorem BadRequest_only_for_bind_failure
    (db : Store T) (idParam field : string) (c : gin.Context)
    (w : World T any) (err : error) :
  anyRun db idParam field c w ->
  In (EmitError CodeBadRequest err) (responses w) ->
  gin.ShouldBind c = inr err.
Proof.
  intros [-> | [-> | ->]]; unfold_handler; every_path;
    cbn [responses app In]; intros Hin.
  all: membership_cases.
  all: congruence.
Qed.


(** X13. A nested-field request that decodes and has no path
    identifier is answered with the MissingID error under the code
    ProcessFailed: no persistence call is made and no field is read. *)
Theorem GetField_empty_id_MissingID
    (db : Store T) (idParam field : string) (c : gin.Context)
    (request : GetRequestBody) :
  gin.ShouldBind c = inl request ->
  gin.Param c idParam = "" ->
  calls (GetField db idParam field c) = []
  /\ responses (GetField db idParam field c) =
     [EmitError CodeProcessFailed ErrMissingID]
  /\ panicked (GetField db idParam field c) = None.
Proof.
  intros Hbind Hid. unfold_handler.
  rewrite Hbind. empty_id Hid. repeat split; reflexivity.
Qed.

(** X14. When the parent fetch of a nested-field request fails, the
    response is the fetch's error under ProcessFailed; the fetch is the
    only persistence call, so no association count is made, and the
    field is never looked up, so a field missing from the model cannot
    make this path panic. *)
Theorem GetField_fetch_failure_ProcessFailed
    (db : Store T) (idParam field : string) (c : gin.Context)
    (request : GetRequestBody) (model : T) (fetchErr : error) :
  gin.ShouldBind c = inl request ->
  gin.Param c idParam <> "" ->
  onGetByID db (gin.Param c idParam) zero
    [service.Preload (NameToField field zero) (buildQueryOptions request)] =
    (model, Some fetchErr) ->
  responses (GetField db idParam field c) =
    [EmitError CodeProcessFailed fetchErr]
  /\ calls (GetField db idParam field c) =
     [CallGetByID (gin.Param c idParam)
        [service.Preload (NameToField field zero)
           (buildQueryOptions request)]]
  /\ panicked (GetField db idParam field c) = None.
Proof.
  intros Hbind Hid Hfetch. unfold_handler.
  rewrite Hbind. given_id Hid. rewrite Hfetch. repeat split; reflexivity.
Qed.

(** X15. For a nested-field request with the total flag whose field is
    a slice, the handler counts the associations of the fetched parent
    under the resolved field name, passing only the filter; the
    response is the field's value with one addendum, [total] when the
    count succeeds and [totalError] with the error's message when it
    fails. *)
Theorem GetField_total_counts_associations
    (db : Store T) (idParam field : string) (c : gin.Context)
    (request : GetRequestBody) (model : T) (value : any) :
  gin.ShouldBind c = inl request ->
  gin.Param c idParam <> "" ->
  onGetByID db (gin.Param c idParam) zero
    [service.Preload (NameToField field zero) (buildQueryOptions request)] =
    (model, None) ->
  FieldByName model (NameToField field zero) = Some value ->
  Total request = true ->
  Kind value = reflect.Slice ->
  calls (GetField db idParam field c) =
    [CallGetByID (gin.Param c idParam)
       [service.Preload (NameToField field zero)
          (buildQueryOptions request)];
     CallCountAssociations model (NameToField field zero)
       (countOptions (FilterBy request) (FilterValue request))]
  /\ responses (GetField db idParam field c) =
     [EmitSuccess (DataField value)
        [match onCountAssociations db model (NameToField field zero)
                 (countOptions (FilterBy request) (FilterValue request)) with
         | (total, None) => {[ "total" := AnyInt64 total ]}
         | (_, Some err) => {[ "totalError" := AnyString (Error err) ]}
         end]].
Proof.
  intros Hbind Hid Hfetch Hfield Htotal Hkind. unfold_handler.
  rewrite Hbind. given_id Hid. rewrite Hfetch, Hfield, Htotal, Hkind.
  cbn [andb reflect.isSlice].
  destruct (onCountAssociations db _ _ _) as [total [e|]];
    split; reflexivity.
Qed.

(** X16. A nested-field request makes no association count when the
    total flag is off or when the field is not a slice: the parent
    fetch is the only persistence call and the response is the field's
    value with no addenda. *)
Theorem GetField_count_needs_total_and_slice
    (db : Store T) (idParam field : string) (c : gin.Context)
    (request : GetRequestBody) (model : T) (value : any) :
  gin.ShouldBind c = inl request ->
  gin.Param c idParam <> "" ->
  onGetByID db (gin.Param c idParam) zero
    [service.Preload (NameToField field zero) (buildQueryOptions request)] =
    (model, None) ->
  FieldByName model (NameToField field zero) = Some value ->
  Total request = false \/ Kind value <> reflect.Slice ->
  calls (GetField db idParam field c) =
    [CallGetByID (gin.Param c idParam)
       [service.Preload (NameToField field zero)
          (buildQueryOptions request)]]
  /\ responses (GetField db idParam field c) =
     [EmitSuccess (DataField value) []].
Proof.
  intros Hbind Hid Hfetch Hfield Hskip. unfold_handler.
  rewrite Hbind. given_id Hid. rewrite Hfetch, Hfield.
  assert (Hno : Total request && reflect.isSlice (Kind value) = false).
  { destruct Hskip as [-> | Hkind]; [reflexivity|].
    destruct (Kind value); try (now rewrite andb_false_r).
    now destruct Hkind. }
  rewrite Hno. split; reflexivity.
Qed.

(** X17. When the fetched model has no field of the resolved name, the
    nested-field handler panics after the fetch: no response is
    written, and no association count is made even with the total
    flag. *)
Theorem GetField_missing_field_panics
    (db : Store T) (idParam field : string) (c : gin.Context)
    (request : GetRequestBody) (model : T) :
  gin.ShouldBind c = inl request ->
  gin.Param c idParam <> "" ->
  onGetByID db (gin.Param c idParam) zero
    [service.Preload (NameToField field zero) (buildQueryOptions request)] =
    (model, None) ->
  FieldByName model (NameToField field zero) = None ->
  panicked (GetField db idParam field c) =
    Some "reflect: call of reflect.Value.Interface on zero Value"
  /\ responses (GetField db idParam field c) = []
  /\ calls (GetField db idParam field c) =
     [CallGetByID (gin.Param c idParam)
        [service.Preload (NameToField field zero)
           (buildQueryOptions request)]].
Proof.
  intros Hbind Hid Hfetch Hfield. unfold_handler.
  rewrite Hbind. given_id Hid. rewrite Hfetch, Hfield.
  cbn [reflect.isSlice]. rewrite andb_false_r. repeat split; reflexivity.
Qed.

End handlers_every_path.

(** ** The further properties on the concrete instance *)

Example buildQueryOptions_offset_alone :
  buildQueryOptions
    {| Limit := 0; Offset := 20; OrderBy := ""; Descending := true;
       FilterBy := "name"; FilterValue := ""; Preload := []; Total := false |}
  = [].
Proof. reflexivity. Qed.

Lemma bind_failure_is_BadRequest_without_calls_witness :
  responses (Stub.GetByID Stub.healthy (Stub.undecodable "")) =
    [EmitError CodeBadRequest (errorsNew "strconv.ParseInt: invalid syntax")]
  /\ calls (Stub.GetByID Stub.healthy (Stub.undecodable "")) = []
  /\ panicked (Stub.GetByID Stub.healthy (Stub.undecodable "")) = None.
Proof.
  apply (bind_failure_is_BadRequest_without_calls
           Stub.zeroUser Stub.Kind Stub.FieldByName Stub.ErrMissingID
           Stub.NameToField Stub.healthy "id" "order" (Stub.undecodable ""));
    [right; left; reflexivity | reflexivity].
Defined.

Lemma GetList_without_total_skips_count_witness :
  responses (Stub.GetList Stub.countFails (Stub.context Stub.preloadProduct ""))
    = [EmitSuccess (DataList [Stub.alice; Stub.bob]) []]
  /\ calls (Stub.GetList Stub.countFails
              (Stub.context Stub.preloadProduct "")) =
     [CallGetMany (buildQueryOptions Stub.preloadProduct)]
  /\ warnings (Stub.GetList Stub.countFails
                 (Stub.context Stub.preloadProduct "")) = [].
Proof.
  apply (GetList_without_total_skips_count
           Stub.countFails (Stub.context Stub.preloadProduct "")
           Stub.preloadProduct [Stub.alice; Stub.bob]);
    reflexivity.
Defined.

Lemma GetList_with_total_attaches_count_witness :
  responses (Stub.GetList Stub.healthy (Stub.context Stub.johnQuery "")) =
    [EmitSuccess (DataList [Stub.alice; Stub.bob])
       [ {[ "total" := AnyInt64 42 ]} ]]
  /\ calls (Stub.GetList Stub.healthy (Stub.context Stub.johnQuery "")) =
     [CallGetMany (buildQueryOptions Stub.johnQuery);
      CallCount (countOptions "name" "John")]
  /\ warnings (Stub.GetList Stub.healthy (Stub.context Stub.johnQuery "")) = [].
Proof.
  apply (GetList_with_total_attaches_count
           Stub.healthy (Stub.context Stub.johnQuery "") Stub.johnQuery
           [Stub.alice; Stub.bob] 42%Z);
    reflexivity.
Defined.

Lemma one_response_per_request_witness :
  match panicked (Stub.GetField Stub.healthy "bogus"
                    (Stub.context Stub.johnQuery "7")) with
  | None =>
      length (responses (Stub.GetField Stub.healthy "bogus"
                           (Stub.context Stub.johnQuery "7"))) = 1
  | Some _ =>
      responses (Stub.GetField Stub.healthy "bogus"
                   (Stub.context Stub.johnQuery "7")) = []
      /\ Stub.GetField Stub.healthy "bogus" (Stub.context Stub.johnQuery "7")
         = Stub.GetField Stub.healthy "bogus" (Stub.context Stub.johnQuery "7")
  end.
Proof.
  apply (one_response_per_request
           Stub.zeroUser Stub.Kind Stub.FieldByName Stub.ErrMissingID
           Stub.NameToField Stub.healthy "id" "bogus"
           (Stub.context Stub.johnQuery "7")).
  right; right; reflexivity.
Defined.

Lemma at_most_one_fetch_then_one_count_witness :
  calls (Stub.GetField Stub.healthy "order" (Stub.context Stub.johnQuery "7"))
  = List.filter isFetch
      (calls (Stub.GetField Stub.healthy "order"
                (Stub.context Stub.johnQuery "7")))
    ++ List.filter isCount
         (calls (Stub.GetField Stub.healthy "order"
                   (Stub.context Stub.johnQuery "7")))
  /\ length (List.filter isFetch
               (calls (Stub.GetField Stub.healthy "order"
                         (Stub.context Stub.johnQuery "7")))) <= 1
  /\ length (List.filter isCount
               (calls (Stub.GetField Stub.healthy "order"
                         (Stub.context Stub.johnQuery "7"))))
     <= length (List.filter isFetch
                  (calls (Stub.GetField Stub.healthy "order"
                            (Stub.context Stub.johnQuery "7")))).
Proof.
  apply (at_most_one_fetch_then_one_count
           Stub.zeroUser Stub.Kind Stub.FieldByName Stub.ErrMissingID
           Stub.NameToField Stub.healthy "id" "order"
           (Stub.context Stub.johnQuery "7")).
  right; right; reflexivity.
Defined.

Lemma BadRequest_only_for_bind_failure_witness :
  gin.ShouldBind (Stub.undecodable "7") =
    inr (errorsNew "strconv.ParseInt: invalid syntax").
Proof.
  apply (BadRequest_only_for_bind_failure
           Stub.zeroUser Stub.Kind Stub.FieldByName Stub.ErrMissingID
           Stub.NameToField Stub.healthy "id" "order" (Stub.undecodable "7")
           (Stub.GetList Stub.healthy (Stub.undecodable "7")));
    [left; reflexivity | left; reflexivity].
Defined.


Lemma GetField_empty_id_MissingID_witness :
  calls (Stub.GetField Stub.healthy "order" (Stub.context Stub.johnQuery ""))
  = []
  /\ responses (Stub.GetField Stub.healthy "order"
                  (Stub.context Stub.johnQuery "")) =
     [EmitError CodeProcessFailed Stub.ErrMissingID]
  /\ panicked (Stub.GetField Stub.healthy "order"
                 (Stub.context Stub.johnQuery "")) = None.
Proof.
  apply (GetField_empty_id_MissingID
           Stub.zeroUser Stub.Kind Stub.FieldByName Stub.ErrMissingID
           Stub.NameToField Stub.healthy "id" "order"
           (Stub.context Stub.johnQuery "") Stub.johnQuery);
    reflexivity.
Defined.

Lemma GetField_fetch_failure_ProcessFailed_witness :
  responses (Stub.GetField (Stub.fetchFails (2%Z, None)) "bogus"
               (Stub.context Stub.johnQuery "7")) =
    [EmitError CodeProcessFailed (errorsNew "fetch: connection lost")]
  /\ calls (Stub.GetField (Stub.fetchFails (2%Z, None)) "bogus"
              (Stub.context Stub.johnQuery "7")) =
     [CallGetByID "7"
        [service.Preload "bogus" (buildQueryOptions Stub.johnQuery)]]
  /\ panicked (Stub.GetField (Stub.fetchFails (2%Z, None)) "bogus"
                 (Stub.context Stub.johnQuery "7")) = None.
Proof.
  apply (GetField_fetch_failure_ProcessFailed
           Stub.zeroUser Stub.Kind Stub.FieldByName Stub.ErrMissingID
           Stub.NameToField (Stub.fetchFails (2%Z, None)) "id" "bogus"
           (Stub.context Stub.johnQuery "7") Stub.johnQuery Stub.zeroUser
           (errorsNew "fetch: connection lost"));
    [reflexivity | discriminate | reflexivity].
Defined.

Lemma GetField_total_counts_associations_witness :
  calls (Stub.GetField Stub.countFails "order"
           (Stub.context Stub.johnQuery "7")) =
    [CallGetByID "7"
       [service.Preload "Order" (buildQueryOptions Stub.johnQuery)];
     CallCountAssociations Stub.alice "Order" (countOptions "name" "John")]
  /\ responses (Stub.GetField Stub.countFails "order"
                  (Stub.context Stub.johnQuery "7")) =
     [EmitSuccess (DataField (Stub.OfSlice ["book"; "pen"]))
        [ {[ "totalError" := AnyString "count: connection lost" ]} ]].
Proof.
  apply (GetField_total_counts_associations
           Stub.zeroUser Stub.Kind Stub.FieldByName Stub.ErrMissingID
           Stub.NameToField Stub.countFails "id" "order"
           (Stub.context Stub.johnQuery "7") Stub.johnQuery Stub.alice
           (Stub.OfSlice ["book"; "pen"]));
    first [reflexivity | discriminate].
Defined.

Lemma GetField_count_needs_total_and_slice_witness :
  calls (Stub.GetField Stub.healthy "name" (Stub.context Stub.johnQuery "7"))
  = [CallGetByID "7"
       [service.Preload "Name" (buildQueryOptions Stub.johnQuery)]]
  /\ responses (Stub.GetField Stub.healthy "name"
                  (Stub.context Stub.johnQuery "7")) =
     [EmitSuccess (DataField (Stub.OfString "Alice")) []].
Proof.
  apply (GetField_count_needs_total_and_slice
           Stub.zeroUser Stub.Kind Stub.FieldByName Stub.ErrMissingID
           Stub.NameToField Stub.healthy "id" "name"
           (Stub.context Stub.johnQuery "7") Stub.johnQuery Stub.alice
           (Stub.OfString "Alice"));
    [reflexivity | discriminate | reflexivity | reflexivity
    | right; discriminate].
Defined.

Lemma GetField_missing_field_panics_witness :
  panicked (Stub.GetField Stub.healthy "bogus"
              (Stub.context Stub.johnQuery "7")) =
    Some "reflect: call of reflect.Value.Interface on zero Value"
  /\ responses (Stub.GetField Stub.healthy "bogus"
                  (Stub.context Stub.johnQuery "7")) = []
  /\ calls (Stub.GetField Stub.healthy "bogus"
              (Stub.context Stub.johnQuery "7")) =
     [CallGetByID "7"
        [service.Preload "bogus" (buildQueryOptions Stub.johnQuery)]].
Proof.
  apply (GetField_missing_field_panics
           Stub.zeroUser Stub.Kind Stub.FieldByName Stub.ErrMissingID
           Stub.NameToField Stub.healthy "id" "bogus"
           (Stub.context Stub.johnQuery "7") Stub.johnQuery Stub.alice);
    [reflexivity | discriminate | reflexivity | reflexivity].
Defined.
